(** * The admission webhook server of controller/webhook/server.go

    A shallow embedding of the webhook server: the certificate store that
    [updateCert] refreshes and [getCertificate] serves, the event loop [run]
    that reacts to the credentials watcher, and the request path
    [serve] / [processReq] / [decode].

    Go values are modelled as follows.
    - A pointer that may be nil is an [option]; reading a field through a
      nil pointer is the run-time panic of Go, kept as an outcome of its own.
    - A pair [(value, err)] returned by a Go function is a [result], or a
      pair with an [option error] where the code uses both components.
    - [[]byte] is [list Byte.byte], a Go [string] is a [string].
    - Side effects (log calls, the invocation of the handler, the paths
      handed to the credentials reader, the path handed to the watcher) are
      collected in a trace, in program order.
    - The server is used by one goroutine at a time in this model, so the
      read/write lock around [cert] is a no-op and left out. *)

From Stdlib Require Import ZArith.
From Stdlib.Strings Require Import String Ascii Byte.
From stdpp Require Import base option list strings gmap.

#[local] Open Scope string_scope.
#[local] Open Scope list_scope.

(** ** Go values *)

Abbreviation bytes := (list Byte.byte).

(** Go's [error] interface; the code only ever calls [Error()]. *)
Record error := mkError { Error : string }.

(** [(value, err)] with [err != nil] meaning that [value] is not used. *)
Inductive result (A : Type) : Type :=
| Ok (a : A)
| Err (err : error).
Arguments Ok {A} a.
Arguments Err {A} err.

(** [fmt.Errorf(prefix + "%s", err)]. *)
Definition Errorf (prefix : string) (err : error) : error :=
  mkError (prefix +:+ Error err).

(** [[]byte(s)]. *)
Definition bytes_of (s : string) : bytes := list_byte_of_string s.

(** What a goroutine can come to: it returns, it panics, or the process
    exits ([log.Fatalf] logs and then calls [os.Exit(1)]). *)
Inductive outcome (A : Type) : Type :=
| Ret (a : A)
| Panic (msg : string)
| Exit (code : Z).
Arguments Ret {A} a.
Arguments Panic {A} msg.
Arguments Exit {A} code.

(** The message of the panic raised by a nil pointer dereference. *)
Definition nilDereference : string :=
  "runtime error: invalid memory address or nil pointer dereference".

(** ** The Kubernetes types the server touches

    Of k8s.io/apimachinery's [metav1.Status] and k8s.io/api's
    [admission/v1beta1] types, the fields the server reads or writes and the
    ones a handler's answer is made of. *)

Module metav1.
Record Status := mkStatus {
  Message : string;
  Reason : string;
  Code : Z
}.
End metav1.

Module AdmissionRequest.
Record t := mk {
  UID : string;
  Name : string;
  Namespace : string;
  Operation : string;
  Object : bytes;
  OldObject : bytes;
  DryRun : option bool
}.
End AdmissionRequest.

Module AdmissionResponse.
Record t := mk {
  UID : string;
  Allowed : bool;
  Result : option metav1.Status;
  Patch : bytes;
  PatchType : option string;
  AuditAnnotations : gmap string string
}.
End AdmissionResponse.

Module AdmissionReview.
Record t := mk {
  Kind : string;
  APIVersion : string;
  Request : option AdmissionRequest.t;
  Response : option AdmissionResponse.t
}.
(** [var admissionReview admissionv1beta1.AdmissionReview]: both pointers
    are nil. *)
Definition zero : t := mk "" "" None None.
Definition setRequest (r : t) (q : option AdmissionRequest.t) : t :=
  mk (Kind r) (APIVersion r) q (Response r).
Definition setResponse (r : t) (p : option AdmissionResponse.t) : t :=
  mk (Kind r) (APIVersion r) (Request r) p.
End AdmissionReview.

(** ** Traces *)

Inductive Level := DebugLevel | InfoLevel | WarnLevel | ErrorLevel | FatalLevel.

Inductive Event :=
| Log (lvl : Level) (msg : string)
| HandlerCall (req : AdmissionRequest.t)
| ReadCreds (keyPath crtPath : string)
| Watch (path : string).

(** A computation: what it comes to, and what it did on the way. *)
Definition M (A : Type) : Type := outcome A * list Event.

Definition ret {A} (a : A) : M A := (Ret a, []).

Definition bind {A B} (k : A -> M B) (m : M A) : M B :=
  match m with
  | (Ret a, t) => let (o, t') := k a in (o, t ++ t')
  | (Panic msg, t) => (Panic msg, t)
  | (Exit code, t) => (Exit code, t)
  end.

#[export] Instance M_ret : MRet M := @ret.
#[export] Instance M_bind : MBind M := @bind.

Definition emit (e : Event) : M unit := (Ret tt, [e]).
Definition log (lvl : Level) (msg : string) : M unit := emit (Log lvl msg).
Definition panic {A} (msg : string) : M A := (Panic msg, []).

(** [log.Fatalf]: the entry is written, then the process exits with 1. *)
Definition Fatalf {A} (msg : string) : M A :=
  (Exit 1%Z, [Log FatalLevel msg]).

(** [p.f] for a pointer [p]. *)
Definition deref {A} (p : option A) : M A :=
  match p with
  | Some a => ret a
  | None => panic nilDereference
  end.

Definition outcome_of {A} (m : M A) : outcome A := fst m.
Definition trace_of {A} (m : M A) : list Event := snd m.

(** ** net/http: the response writer and [http.Error]

    The writer follows the contract net/http documents for
    [http.ResponseWriter]: the status line is fixed by the first
    [WriteHeader]; a [Write] before any [WriteHeader] first does
    [WriteHeader(http.StatusOK)], whether or not the data then goes out;
    and a later [WriteHeader] is ignored. [connErr] is the state of the
    connection underneath: when it is set, writing body data fails with
    that error. *)

Definition StatusOK : Z := 200.
Definition StatusInternalServerError : Z := 500.

Record ResponseWriter := mkWriter {
  Header : gmap string string;
  status : option Z;
  written : bytes;
  connErr : option error
}.

Definition setHeader (k v : string) (w : ResponseWriter) : ResponseWriter :=
  mkWriter (<[k := v]> (Header w)) (status w) (written w) (connErr w).

Definition WriteHeader (code : Z) (w : ResponseWriter) : ResponseWriter :=
  match status w with
  | Some _ => w
  | None => mkWriter (Header w) (Some code) (written w) (connErr w)
  end.

Definition Write (data : bytes) (w : ResponseWriter)
  : ResponseWriter * (nat * option error) :=
  let w := WriteHeader StatusOK w in
  match connErr w with
  | Some err => (w, (0, Some err))
  | None =>
      (mkWriter (Header w) (status w) (written w ++ data) (connErr w),
       (length data, None))
  end.

Definition newline : string := String (ascii_of_nat 10) EmptyString.

(** [http.Error(w, error, code)]: two header fields, the status, and the
    text on a line of its own; the result of that last write is dropped. *)
Definition http_Error (w : ResponseWriter) (text : string) (code : Z)
  : ResponseWriter :=
  let w := setHeader "Content-Type" "text/plain; charset=utf-8" w in
  let w := setHeader "X-Content-Type-Options" "nosniff" w in
  let w := WriteHeader code w in
  fst (Write (bytes_of (text +:+ newline)) w).

(** [*http.Request], as far as [serve] looks at it: the body (nil, or a
    reader together with what [ioutil.ReadAll] gets out of it) and the
    request's context. *)
Record http_Request (Context : Type) := mkRequest {
  Body : option (bytes * option error);
  Ctx : Context
}.
Arguments mkRequest {Context} Body Ctx.
Arguments Body {Context} _.
Arguments Ctx {Context} _.

(** [ioutil.ReadAll]. *)
Definition ReadAll (r : bytes * option error) : bytes * option error := r.

(** The file system the credentials are mounted on: path to content. *)
Abbreviation FS := (gmap string bytes).

(** ** The server *)

Section Webhook.

(** Values the server hands on without looking inside: [context.Context],
    [*k8s.API], [record.EventRecorder], [*pkgTls.Cred], [tls.Certificate]. *)
Variables GoContext API EventRecorder Cred Certificate : Type.

(** The constants of pkg/k8s that name the mounted key and certificate. *)
Variables MountPathTLSKeyPEM MountPathTLSCrtPEM : string.

(** pkg/tls: [ReadPEMCreds(keyPath, crtPath)] on a given disk, and the two
    PEM encoders of the credentials it returns. *)
Variable ReadPEMCreds : FS -> string -> string -> result Cred.
Variable EncodePEM : Cred -> string.
Variable EncodePrivateKeyPEM : Cred -> string.

(** pkg/tls: what [StartWatching(ctx)] of a watcher made for a path has
    returned by the time it first waits, on a given disk: nothing yet (it
    is watching), [nil], or the error that kept it from watching. *)
Variable StartWatching : FS -> GoContext -> string -> option (option error).

(** crypto/tls: [tls.X509KeyPair(certPEMBlock, keyPEMBlock)]. *)
Variable X509KeyPair : bytes -> bytes -> result Certificate.

(** sigs.k8s.io/yaml: [yaml.Unmarshal(data, &review)] returns what the
    pointed-to review holds afterwards, and the error. *)
Variable Unmarshal :
  bytes -> AdmissionReview.t -> AdmissionReview.t * option error.

(** encoding/json: [json.Marshal(review)]. *)
Variable Marshal : AdmissionReview.t -> result bytes.

(** fmt: the [%+v] rendering of the request in the debug entry. *)
Variable fmtRequest : AdmissionRequest.t -> string.

(** client-go: the recorder the broadcaster makes for a component. *)
Variable NewRecorder : API -> string -> EventRecorder.

(** [Handler] is the signature for the functions that ultimately deal with
    the admission request. The handler is given a pointer to the request, so
    the first component of its answer is the request as the handler left
    it; the other two are the values it returns. A handler of this type
    answers: one that panics, ends the process or never returns is outside
    the model, and what is stated below about a call of the handler is
    stated for a handler that answers. *)
Definition Handler : Type :=
  GoContext -> API -> AdmissionRequest.t -> EventRecorder ->
  AdmissionRequest.t * option AdmissionResponse.t * option error.

(** [Server] describes the https server implementing the webhook. *)
Record Server := mkServer {
  Addr : string;
  api : API;
  handler : Handler;
  cert : option Certificate;
  recorder : EventRecorder
}.

Definition setCert (s : Server) (c : option Certificate) : Server :=
  mkServer (Addr s) (api s) (handler s) c (recorder s).

(** *** The certificate store *)

Definition updateCert (s : Server) (disk : FS) : M (Server * option error) :=
  emit (ReadCreds MountPathTLSKeyPEM MountPathTLSCrtPEM);;
  match ReadPEMCreds disk MountPathTLSKeyPEM MountPathTLSCrtPEM with
  | Err err => mret (s, Some (Errorf "failed to read cert from disk: " err))
  | Ok creds =>
      let certPEM := EncodePEM creds in
      let keyPEM := EncodePrivateKeyPEM creds in
      match X509KeyPair (bytes_of certPEM) (bytes_of keyPEM) with
      | Err err => mret (s, Some err)
      | Ok cert =>
          log DebugLevel "Certificate has been updated";;
          mret (setCert s (Some cert), None)
      end
  end.

(** [getCertificate] returns a function that provides the TLS server with
    the current cert; the hello message is not looked at. *)
Definition getCertificate (s : Server) : option Certificate * option error :=
  (cert s, None).

(** *** The event loop *)

(** What [run] receives: a value on [updateEvent], together with the disk
    as it is when the loop gets to re-read it, or an error on [errEvent]. *)
Inductive WatchEvent :=
| Updated (disk : FS)
| Failed (cause : error).

(** One turn of the [for { select { ... } }] of [run]. *)
Definition run_step (s : Server) (ev : WatchEvent) : M Server :=
  match ev with
  | Updated disk =>
      '(s, err) ← updateCert s disk;
      match err with
      | Some err =>
          log WarnLevel
            ("Skipping update as cert could not be read from disk: "
               +:+ Error err);;
          mret s
      | None => log InfoLevel "Updated certificate";; mret s
      end
  | Failed err =>
      log WarnLevel ("Received error from fs watcher: " +:+ Error err);;
      mret s
  end.

(** [run] reads from the update and error channels and reloads the certs
    when necessary. [run s events] is the loop after it has received
    [events], in this order, on its two channels: it is back in the
    [select], with the server it returns. *)
Fixpoint run (s : Server) (events : list WatchEvent) : M Server :=
  match events with
  | [] => mret s
  | ev :: events => s ← run_step s ev; run s events
  end.

(** The goroutine [NewServer] starts for the watcher:
    [if err := watcher.StartWatching(ctx); err != nil { log.Fatalf(...) }],
    given what [StartWatching] has returned, if it has. *)
Definition watcherGoroutine (returned : option (option error)) : M unit :=
  match returned with
  | Some (Some err) =>
      Fatalf ("Failed to start creds watcher: " +:+ Error err)
  | Some None => mret tt
  | None => mret tt
  end.

(** [NewServer] returns a new instance of [Server]. The watcher is made for
    [certPath] and its goroutine is started, the server is assembled with
    no certificate, the certificate is loaded, and the event loop is
    started. The two goroutines run beside [NewServer]; the model takes the
    schedule in which the watcher's goroutine runs until [StartWatching]
    first waits or returns, before [NewServer] goes on. *)
Definition NewServer (disk : FS) (ctx : GoContext) (api : API)
    (addr certPath : string) (handler : Handler) (component : string)
  : M Server :=
  emit (Watch certPath);;
  watcherGoroutine (StartWatching disk ctx certPath);;
  let recorder := NewRecorder api component in
  let s := mkServer addr api handler None recorder in
  '(s, err) ← updateCert s disk;
  match err with
  | Some err => Fatalf ("Failed to initialized certificate: " +:+ Error err)
  | None => mret s
  end.

(** *** The request path *)

Definition decode (data : bytes) : AdmissionReview.t * option error :=
  Unmarshal data AdmissionReview.zero.

(** The response [processReq] writes itself:
    [&AdmissionResponse{UID: uid, Allowed: false,
                        Result: &metav1.Status{Message: err.Error()}}]. *)
Definition denial (uid : string) (err : error) : AdmissionResponse.t :=
  AdmissionResponse.mk uid false
    (Some (metav1.mkStatus (Error err) "" 0)) [] None ∅.

Definition processReq (s : Server) (ctx : GoContext) (data : bytes)
  : M AdmissionReview.t :=
  let '(admissionReview, err) := decode data in
  match err with
  | Some err =>
      log ErrorLevel ("failed to decode data. Reason: " +:+ Error err);;
      request ← deref (AdmissionReview.Request admissionReview);
      mret (AdmissionReview.setResponse admissionReview
              (Some (denial (AdmissionRequest.UID request) err)))
  | None =>
      request ← deref (AdmissionReview.Request admissionReview);
      log InfoLevel
        ("received admission review request "
           +:+ AdmissionRequest.UID request);;
      log DebugLevel ("admission request: " +:+ fmtRequest request);;
      emit (HandlerCall request);;
      let '(request, admissionResponse, err) :=
        handler s ctx (api s) request (recorder s) in
      let admissionReview :=
        AdmissionReview.setRequest admissionReview (Some request) in
      match err with
      | Some err =>
          log ErrorLevel
            ("failed to run webhook handler. Reason: " +:+ Error err);;
          mret (AdmissionReview.setResponse admissionReview
                  (Some (denial (AdmissionRequest.UID request) err)))
      | None =>
          mret (AdmissionReview.setResponse admissionReview admissionResponse)
      end
  end.

Definition serve (s : Server) (res : ResponseWriter)
    (req : http_Request GoContext) : M ResponseWriter :=
  let '(data, err) :=
    match Body req with
    | Some body => ReadAll body
    | None => ([], None)
    end in
  match err with
  | Some err => mret (http_Error res (Error err) StatusInternalServerError)
  | None =>
      if decide (length data = 0) then
        log WarnLevel "received empty payload";; mret res
      else
        response ← processReq s (Ctx req) data;
        match Marshal response with
        | Err err =>
            mret (http_Error res (Error err) StatusInternalServerError)
        | Ok responseJSON =>
            let '(res, (_, err)) := Write responseJSON res in
            match err with
            | Some err =>
                mret (http_Error res (Error err) StatusInternalServerError)
            | None => mret res
            end
        end
  end.

(** ** What [processReq] comes to, case by case *)

Lemma processReq_decode_failure s ctx data review err request :
  decode data = (review, Some err) ->
  AdmissionReview.Request review = Some request ->
  processReq s ctx data =
    (Ret (AdmissionReview.setResponse review
            (Some (denial (AdmissionRequest.UID request) err))),
     [Log ErrorLevel ("failed to decode data. Reason: " +:+ Error err)]).
Proof.
  intros Hdec Hreq. unfold processReq. rewrite Hdec, Hreq. reflexivity.
Qed.

Lemma processReq_decoded_nil s ctx data review :
  decode data = (review, None) ->
  AdmissionReview.Request review = None ->
  processReq s ctx data = (Panic nilDereference, []).
Proof.
  intros Hdec Hreq. unfold processReq. rewrite Hdec, Hreq. reflexivity.
Qed.

(** The three entries and events that precede the handler's answer. *)
Definition preamble (request : AdmissionRequest.t) : list Event :=
  [Log InfoLevel
     ("received admission review request " +:+ AdmissionRequest.UID request);
   Log DebugLevel ("admission request: " +:+ fmtRequest request);
   HandlerCall request].

Lemma processReq_handler_failure s ctx data review request request' resp err :
  decode data = (review, None) ->
  AdmissionReview.Request review = Some request ->
  handler s ctx (api s) request (recorder s) = (request', resp, Some err) ->
  processReq s ctx data =
    (Ret (AdmissionReview.setResponse
            (AdmissionReview.setRequest review (Some request'))
            (Some (denial (AdmissionRequest.UID request') err))),
     preamble request ++
     [Log ErrorLevel
        ("failed to run webhook handler. Reason: " +:+ Error err)]).
Proof.
  intros Hdec Hreq Hh. unfold processReq. rewrite Hdec, Hreq. cbn.
  rewrite Hh. reflexivity.
Qed.

Lemma processReq_handler_success s ctx data review request request' resp :
  decode data = (review, None) ->
  AdmissionReview.Request review = Some request ->
  handler s ctx (api s) request (recorder s) = (request', resp, None) ->
  processReq s ctx data =
    (Ret (AdmissionReview.setResponse
            (AdmissionReview.setRequest review (Some request')) resp),
     preamble request).
Proof.
  intros Hdec Hreq Hh. unfold processReq. rewrite Hdec, Hreq. cbn.
  rewrite Hh. reflexivity.
Qed.

(** C2. When decoding fails and has extracted no request, [processReq]
    returns no exchange at all: it logs the decode error and panics on the
    nil request. The handler is not called on that path. *)
Theorem processReq_decode_failure_without_request s ctx data review err :
  decode data = (review, Some err) ->
  AdmissionReview.Request review = None ->
  outcome_of (processReq s ctx data) = Panic nilDereference /\
  (forall exchange, outcome_of (processReq s ctx data) <> Ret exchange) /\
  (forall request, HandlerCall request ∉ trace_of (processReq s ctx data)).
Proof.
  intros Hdec Hreq. unfold processReq. rewrite Hdec, Hreq. cbn.
  repeat split; [discriminate|].
  intros request Hin. apply list_elem_of_singleton in Hin. discriminate.
Qed.

(** For a handler that answers (as every [Handler] of this model does),
    [processReq] returns an exchange exactly when decoding, failed or not,
    has left a request in the review. *)
Theorem processReq_returns_iff_request_present s ctx data :
  (exists exchange, outcome_of (processReq s ctx data) = Ret exchange) <->
  is_Some (AdmissionReview.Request (decode data).1).
Proof.
  unfold processReq.
  destruct (decode data) as [review [err|]]; cbn [fst];
    destruct (AdmissionReview.Request review) as [request|]; cbn.
  - split; [by eexists | by eexists].
  - split; [by intros [? ?] | by intros [? ?]].
  - destruct (handler s ctx (api s) request (recorder s))
      as [[request' response] [err|]]; cbn; split; by eexists.
  - split; [by intros [? ?] | by intros [? ?]].
Qed.

(** C5. For every successfully decoded request for which the decision
    handler returns a response and no error, [processReq] returns the
    exchange with the handler's response put in as it is: the UID, the
    allow/deny decision and every other field of the response are the
    handler's. *)
Theorem processReq_forwards_handler_response
    s ctx data review request request' response :
  decode data = (review, None) ->
  AdmissionReview.Request review = Some request ->
  handler s ctx (api s) request (recorder s)
    = (request', Some response, None) ->
  exists exchange,
    outcome_of (processReq s ctx data) = Ret exchange /\
    AdmissionReview.Response exchange = Some response /\
    exchange =
      AdmissionReview.mk (AdmissionReview.Kind review)
        (AdmissionReview.APIVersion review) (Some request') (Some response).
Proof.
  intros Hdec Hreq Hh.
  rewrite (processReq_handler_success _ _ _ _ _ _ _ Hdec Hreq Hh).
  eexists; repeat split.
Qed.

(** C6, amended. For every request body that is successfully parsed into a
    request, [processReq] returns an exchange; when the handler fails, the
    response is the one the processor writes and its UID is the UID of the
    exchange's request; when the handler succeeds, the response is the
    handler's own, so its UID is the request's exactly when the handler
    echoed it. *)
Theorem processReq_response_UID s ctx data review request :
  decode data = (review, None) ->
  AdmissionReview.Request review = Some request ->
  exists exchange request',
    outcome_of (processReq s ctx data) = Ret exchange /\
    AdmissionReview.Request exchange = Some request' /\
    match handler s ctx (api s) request (recorder s) with
    | (_, _, Some err) =>
        AdmissionResponse.UID <$> AdmissionReview.Response exchange
          = Some (AdmissionRequest.UID request')
    | (_, response, None) =>
        AdmissionReview.Response exchange = response /\
        (AdmissionResponse.UID <$> AdmissionReview.Response exchange
           = Some (AdmissionRequest.UID request') <->
         AdmissionResponse.UID <$> response
           = Some (AdmissionRequest.UID request'))
    end.
Proof.
  intros Hdec Hreq.
  destruct (handler s ctx (api s) request (recorder s))
    as [[request' response] [err|]] eqn:Hh.
  - rewrite (processReq_handler_failure _ _ _ _ _ _ _ _ Hdec Hreq Hh).
    eexists _, request'. repeat split.
  - rewrite (processReq_handler_success _ _ _ _ _ _ _ Hdec Hreq Hh).
    eexists _, request'. repeat split; auto.
Qed.

(** *** [serve] on an empty body *)

(** C4. For every request with an absent or an empty body, [serve] returns
    normally with the response writer exactly as it got it (no status, no
    header field, no body byte), and all it does is log one warning: no
    exchange is built and the handler is not called. *)
Theorem serve_empty_body s res (req : http_Request GoContext) :
  Body req = None \/ Body req = Some ([], None) ->
  serve s res req = (Ret res, [Log WarnLevel "received empty payload"]).
Proof.
  intros [Hbody | Hbody]; unfold serve; rewrite Hbody; reflexivity.
Qed.

(** *** The certificate store *)

(** Every update attempt either fails and hands back the server it was
    given, or installs the freshly parsed certificate. *)
Lemma updateCert_cases s disk :
  (exists err, outcome_of (updateCert s disk) = Ret (s, Some err)) \/
  (exists c, outcome_of (updateCert s disk) = Ret (setCert s (Some c), None)).
Proof.
  unfold updateCert.
  destruct (ReadPEMCreds disk MountPathTLSKeyPEM MountPathTLSCrtPEM)
    as [creds | err]; [|left; eexists; reflexivity].
  destruct (X509KeyPair _ _) as [c | err];
    [right | left]; eexists; reflexivity.
Qed.

(** C7. For every certificate update attempt, if reading the credentials or
    parsing the key pair fails, [updateCert] returns an error together with
    the server it was given, so that [getCertificate] goes on serving the
    certificate that was active before the call. A read error comes back
    prefixed, a parse error as it is. *)
Theorem updateCert_failure_keeps_certificate s disk :
  (exists err,
     ReadPEMCreds disk MountPathTLSKeyPEM MountPathTLSCrtPEM = Err err) \/
  (exists creds err,
     ReadPEMCreds disk MountPathTLSKeyPEM MountPathTLSCrtPEM = Ok creds /\
     X509KeyPair (bytes_of (EncodePEM creds))
       (bytes_of (EncodePrivateKeyPEM creds)) = Err err) ->
  exists s' err,
    outcome_of (updateCert s disk) = Ret (s', Some err) /\
    s' = s /\
    getCertificate s' = getCertificate s /\
    ((forall e,
        ReadPEMCreds disk MountPathTLSKeyPEM MountPathTLSCrtPEM = Err e ->
        err = Errorf "failed to read cert from disk: " e) /\
     (forall creds,
        ReadPEMCreds disk MountPathTLSKeyPEM MountPathTLSCrtPEM = Ok creds ->
        X509KeyPair (bytes_of (EncodePEM creds))
          (bytes_of (EncodePrivateKeyPEM creds)) = Err err)).
Proof.
  intros [ [err Hread] | (creds & err & Hread & Hparse)];
    unfold updateCert; rewrite Hread.
  - exists s, (Errorf "failed to read cert from disk: " err).
    repeat split; [congruence | discriminate].
  - rewrite Hparse. exists s, err.
    repeat split; [discriminate | congruence].
Qed.

(** *** The event loop *)

Lemma bind_Ret {A B} (a : A) (t : list Event) (k : A -> M B) :
  ((Ret a, t) ≫= k) = (outcome_of (k a), t ++ trace_of (k a)).
Proof. cbn. destruct (k a); reflexivity. Qed.

Lemma bind_mret {A B} (a : A) (k : A -> M B) : (mret a ≫= k) = k a.
Proof. cbn. destruct (k a); reflexivity. Qed.

Lemma bind_ext {A B} (m : M A) (k k' : A -> M B) :
  (forall a, k a = k' a) -> (m ≫= k) = (m ≫= k').
Proof. intros H. destruct m as [[a| |] t]; cbn; [rewrite H|..]; done. Qed.

Lemma bind_assoc {A B C} (m : M A) (k : A -> M B) (h : B -> M C) :
  ((m ≫= k) ≫= h) = (m ≫= fun a => k a ≫= h).
Proof.
  destruct m as [[a| |] t]; cbn; try done.
  destruct (k a) as [[b| |] t']; cbn; try done.
  destruct (h b) as [o t'']. by rewrite app_assoc.
Qed.

Lemma trace_bind_Forall {A B} (P : Event -> Prop) (m : M A) (k : A -> M B) :
  Forall P (trace_of m) ->
  (forall a, Forall P (trace_of (k a))) ->
  Forall P (trace_of (m ≫= k)).
Proof.
  intros Hm Hk. destruct m as [[a| |] t]; cbn in *; try done.
  specialize (Hk a). destruct (k a) as [o t']. cbn in *.
  by apply Forall_app.
Qed.

(** An update attempt whose credentials read and parse. *)
Lemma updateCert_success s disk creds c :
  ReadPEMCreds disk MountPathTLSKeyPEM MountPathTLSCrtPEM = Ok creds ->
  X509KeyPair (bytes_of (EncodePEM creds))
    (bytes_of (EncodePrivateKeyPEM creds)) = Ok c ->
  updateCert s disk =
    (Ret (setCert s (Some c), None),
     [ReadCreds MountPathTLSKeyPEM MountPathTLSCrtPEM;
      Log DebugLevel "Certificate has been updated"]).
Proof. intros Hread Hparse. unfold updateCert. by rewrite Hread, Hparse. Qed.

(** No update attempt panics or exits. *)
Lemma updateCert_returns s disk :
  exists r t, updateCert s disk = (Ret r, t).
Proof.
  unfold updateCert.
  destruct (ReadPEMCreds disk MountPathTLSKeyPEM MountPathTLSCrtPEM)
    as [creds | err]; [|by eexists _, _].
  destruct (X509KeyPair _ _) as [c | err]; by eexists _, _.
Qed.

Lemma run_step_returns s ev : exists s' t, run_step s ev = (Ret s', t).
Proof.
  destruct ev as [disk | cause]; [|by eexists _, _].
  unfold run_step.
  destruct (updateCert_returns s disk) as ([s' [err|]] & t & ->);
    by eexists _, _.
Qed.

Lemma run_returns s events : exists s' t, run s events = (Ret s', t).
Proof.
  revert s. induction events as [|ev events IH]; intros s; [by eexists _, _|].
  cbn [run]. destruct (run_step_returns s ev) as (s1 & t1 & ->).
  destruct (IH s1) as (s2 & t2 & H2).
  rewrite bind_Ret, H2. by eexists _, _.
Qed.

Lemma run_app s before after :
  run s (before ++ after) = (run s before ≫= fun s' => run s' after).
Proof.
  revert s. induction before as [|ev before IH]; intros s; cbn [run app].
  - by rewrite bind_mret.
  - rewrite bind_assoc. apply bind_ext. intros s1. apply IH.
Qed.

(** The entry [run] writes for an error of the watcher. *)
Definition watcherWarning (cause : error) : Event :=
  Log WarnLevel ("Received error from fs watcher: " +:+ Error cause).

(** What the watcher hears of while it watches: the mounted files have
    changed and the disk is now [disk]; watching has hit an I/O error; the
    context it was started with has been cancelled. *)
Inductive Notice :=
| Changed (disk : FS)
| IOError (cause : error)
| Cancelled.

(** Modelled from the spec: the credentials watcher of pkg/tls
    ([NewFsCredsWatcher], [StartWatching]) is not among the sources. Per
    the spec it runs until its controlling cancellation signal fires; on a
    detected change it does nothing but signal, with an [Updated] event; a
    failure is reported as a [Failed] event rather than terminating, and it
    keeps watching afterward; it never exits on its own, only cooperative
    cancellation stops it. [watch notices] is the events a watcher that has
    started puts on the two channels while it hears of [notices], and what
    [StartWatching] has returned by then, if it has. *)
Fixpoint watch (notices : list Notice)
  : list WatchEvent * option (option error) :=
  match notices with
  | [] => ([], None)
  | Changed disk :: notices =>
      let '(events, returned) := watch notices in
      (Updated disk :: events, returned)
  | IOError cause :: notices =>
      let '(events, returned) := watch notices in
      (Failed cause :: events, returned)
  | Cancelled :: _ => ([], Some None)
  end.

(** The two goroutines [NewServer] leaves behind, once the watcher has
    started: the loop takes what the watcher has put on the channels, and
    the watcher's goroutine looks at what [StartWatching] returned. *)
Definition watching (s : Server) (notices : list Notice) : M Server :=
  let '(events, returned) := watch notices in
  s ← run s events; watcherGoroutine returned;; mret s.

Lemma watch_returns notices :
  (watch notices).2 = None \/
  ((watch notices).2 = Some None /\ Cancelled ∈ notices).
Proof.
  induction notices as [|[disk | cause |] notices IH]; cbn.
  - by left.
  - destruct (watch notices) as [events returned]. cbn in *.
    destruct IH as [IH | [IH Hin]]; [by left | right].
    split; [done | apply elem_of_cons; by right].
  - destruct (watch notices) as [events returned]. cbn in *.
    destruct IH as [IH | [IH Hin]]; [by left | right].
    split; [done | apply elem_of_cons; by right].
  - right. split; [done | apply elem_of_cons; by left].
Qed.

Lemma watch_app before after :
  Cancelled ∉ before ->
  watch (before ++ after) =
    (omap (fun n => match n with
                    | Changed disk => Some (Updated disk)
                    | IOError cause => Some (Failed cause)
                    | Cancelled => None
                    end) before ++ (watch after).1,
     (watch after).2).
Proof.
  induction before as [|[disk | cause |] before IH]; intros Hnot; cbn.
  - by destruct (watch after).
  - rewrite IH; [done|]. intros Hin. apply Hnot, elem_of_cons. by right.
  - rewrite IH; [done|]. intros Hin. apply Hnot, elem_of_cons. by right.
  - exfalso. apply Hnot, elem_of_cons. by left.
Qed.

(** C8. After startup, for every sequence of events on the update and
    error channels: the loop takes every event of the sequence and is
    still running afterwards (it neither exits the process nor panics,
    whatever fails); an error event leaves the server as it is and only
    writes a warning; the events behind an error event are handled exactly
    as they would have been without it, from the same server, after that
    warning; and an update event that follows an error event and finds a
    good key pair on the disk puts that pair in service. The goroutine
    [NewServer] runs the watcher in ends the process only when
    [StartWatching] returns an error. The watcher, as the spec describes
    it, reports an I/O error as an error event and goes on watching; it
    returns only when its context has been cancelled, and then without an
    error; so that whatever it hears of, the process is not ended by it
    and the loop is still running. *)
Theorem run_survives_watcher_failures s :
  (forall events, exists s', outcome_of (run s events) = Ret s') /\
  (forall cause, run_step s (Failed cause) = (Ret s, [watcherWarning cause])) /\
  (forall before cause after,
     run s (before ++ Failed cause :: after) =
       (s1 ← run s before; emit (watcherWarning cause);; run s1 after)) /\
  (forall before cause after,
     outcome_of (run s (before ++ Failed cause :: after)) =
     outcome_of (run s (before ++ after))) /\
  (forall before cause disk creds c,
     ReadPEMCreds disk MountPathTLSKeyPEM MountPathTLSCrtPEM = Ok creds ->
     X509KeyPair (bytes_of (EncodePEM creds))
       (bytes_of (EncodePrivateKeyPEM creds)) = Ok c ->
     exists s',
       outcome_of (run s (before ++ [Failed cause; Updated disk])) = Ret s' /\
       getCertificate s' = (Some c, None)) /\
  (forall returned,
     outcome_of (watcherGoroutine returned) = Exit 1 <->
     exists err, returned = Some (Some err)) /\
  (forall notices,
     (watch notices).2 = None \/
     ((watch notices).2 = Some None /\ Cancelled ∈ notices)) /\
  (forall before cause after,
     Cancelled ∉ before ->
     exists events,
       (watch (before ++ IOError cause :: after)).1
         = events ++ Failed cause :: (watch after).1 /\
       (watch (before ++ IOError cause :: after)).2 = (watch after).2) /\
  (forall notices, exists s', outcome_of (watching s notices) = Ret s').
Proof.
  split; [|split; [|split; [|split; [|split; [|split; [|split; [|split]]]]]]].
  - intros events. destruct (run_returns s events) as (s' & t & ->).
    by exists s'.
  - reflexivity.
  - intros before cause after. rewrite run_app.
    apply bind_ext. intros s1. cbn.
    by destruct (run s1 after) as [[s2| |] t2].
  - intros before cause after. rewrite !run_app.
    destruct (run_returns s before) as (s1 & t1 & ->).
    rewrite !bind_Ret. cbn.
    by destruct (run s1 after) as [o t].
  - intros before cause disk creds c Hread Hparse. rewrite run_app.
    destruct (run_returns s before) as (s1 & t1 & ->).
    rewrite bind_Ret.
    assert (Hrun : outcome_of (run s1 [Failed cause; Updated disk])
                   = Ret (setCert s1 (Some c))).
    { cbn [run].
      change (run_step s1 (Failed cause))
        with (Ret s1, [watcherWarning cause]).
      rewrite bind_Ret. unfold run_step.
      by rewrite (updateCert_success s1 disk creds c Hread Hparse). }
    unfold outcome_of in *. cbn beta. cbn [fst]. rewrite Hrun.
    by eexists.
  - intros [[err|]|]; cbn; split; try done; try by eexists.
    + by intros [err [=]].
    + by intros [err [=]].
  - apply watch_returns.
  - intros before cause after Hnot. rewrite (watch_app _ _ Hnot). cbn.
    destruct (watch after) as [events returned]. by eexists.
  - intros notices. unfold watching.
    destruct (watch_returns notices) as [Hr | [Hr _]];
      destruct (watch notices) as [events returned]; cbn in Hr; subst;
      destruct (run_returns s events) as (s' & t & ->);
      by exists s'.
Qed.

(** An update whose key pair reads and parses is what [getCertificate]
    serves from then on. *)
Theorem getCertificate_after_update s disk creds c :
  ReadPEMCreds disk MountPathTLSKeyPEM MountPathTLSCrtPEM = Ok creds ->
  X509KeyPair (bytes_of (EncodePEM creds))
    (bytes_of (EncodePrivateKeyPEM creds)) = Ok c ->
  exists s',
    outcome_of (updateCert s disk) = Ret (s', None) /\
    getCertificate s' = (Some c, None) /\
    handler s' = handler s /\ api s' = api s /\ recorder s' = recorder s.
Proof.
  intros Hread Hparse. rewrite (updateCert_success _ _ _ _ Hread Hparse).
  by eexists.
Qed.

(** *** Where the credentials are read from *)

(** The life of the process: construction, then the event loop. *)
Definition serverLife (disk : FS) (ctx : GoContext) (a : API)
    (addr certPath : string) (h : Handler) (component : string)
    (events : list WatchEvent) : M Server :=
  s ← NewServer disk ctx a addr certPath h component; run s events.

(** An event that is not a read of the credentials, or is one of the two
    mounted files. *)
Definition readsMountPaths (e : Event) : Prop :=
  match e with
  | ReadCreds keyPath crtPath =>
      keyPath = MountPathTLSKeyPEM /\ crtPath = MountPathTLSCrtPEM
  | _ => True
  end.

Lemma updateCert_reads s disk :
  Forall readsMountPaths (trace_of (updateCert s disk)).
Proof.
  unfold updateCert.
  destruct (ReadPEMCreds disk MountPathTLSKeyPEM MountPathTLSCrtPEM)
    as [creds | err]; [|by repeat constructor].
  destruct (X509KeyPair _ _) as [c | err]; by repeat constructor.
Qed.

Lemma run_step_reads s ev : Forall readsMountPaths (trace_of (run_step s ev)).
Proof.
  destruct ev as [disk | cause]; [|by repeat constructor].
  apply trace_bind_Forall; [apply updateCert_reads|].
  intros [s' [err|]]; by repeat constructor.
Qed.

Lemma run_reads s events : Forall readsMountPaths (trace_of (run s events)).
Proof.
  revert s. induction events as [|ev events IH]; intros s; [constructor|].
  apply trace_bind_Forall; [apply run_step_reads | apply IH].
Qed.

(** *** What [serve] answers *)

(** [http.Error] on a writer nothing has been written to yet. *)
Lemma http_Error_fresh res text code :
  status res = None ->
  status (http_Error res text code) = Some code /\
  Header (http_Error res text code) !! "Content-Type"
    = Some "text/plain; charset=utf-8" /\
  (connErr res = None ->
   written (http_Error res text code)
     = written res ++ bytes_of (text +:+ newline)).
Proof.
  intros Hs. unfold http_Error, Write, WriteHeader, setHeader. cbn.
  rewrite Hs. cbn. destruct (connErr res); cbn; repeat split; try done.
  all: by rewrite lookup_insert_ne, lookup_insert_eq.
Qed.

(** [http.Error] on a writer whose status is already out: the status stays,
    and so does the body when the connection rejects writes. *)
Lemma http_Error_late res text code st :
  status res = Some st ->
  status (http_Error res text code) = Some st /\
  (forall err, connErr res = Some err ->
     written (http_Error res text code) = written res).
Proof.
  intros Hs. unfold http_Error, Write, WriteHeader, setHeader. cbn.
  rewrite Hs. cbn. destruct (connErr res); cbn; repeat split; try done.
Qed.

(** A body that was read in full and is not empty goes to [processReq];
    what that returns is encoded and written. *)
Lemma serve_nonempty s res (req : http_Request GoContext) data exchange t :
  Body req = Some (data, None) ->
  data <> [] ->
  processReq s (Ctx req) data = (Ret exchange, t) ->
  serve s res req =
    (Ret match Marshal exchange with
         | Err err => http_Error res (Error err) StatusInternalServerError
         | Ok responseJSON =>
             match Write responseJSON res with
             | (res', (_, Some err)) =>
                 http_Error res' (Error err) StatusInternalServerError
             | (res', (_, None)) => res'
             end
         end, t).
Proof.
  intros Hbody Hdata Hp. unfold serve. rewrite Hbody. cbn.
  destruct (decide (length data = 0)) as [Hlen|_];
    [by destruct data|].
  rewrite Hp, bind_Ret.
  destruct (Marshal exchange) as [js|err]; cbn; [|by rewrite app_nil_r].
  destruct (Write js res) as [res' [n [err|]]]; cbn; by rewrite app_nil_r.
Qed.

(** The writer after the exchange has gone out on it. *)
Definition answered (res : ResponseWriter) (js : bytes) : ResponseWriter :=
  mkWriter (Header res) (Some StatusOK) (written res ++ js) None.

Lemma Write_fresh res js :
  status res = None -> connErr res = None ->
  Write js res = (answered res js, (length js, None)).
Proof.
  intros Hs Hc. unfold Write, WriteHeader, answered. rewrite Hs. cbn.
  by rewrite Hc.
Qed.

(** The status after a write on a writer nothing has been sent on. *)
Lemma Write_status res js :
  status res = None -> status (Write js res).1 = Some StatusOK.
Proof.
  intros Hs. unfold Write, WriteHeader. rewrite Hs. cbn.
  by destruct (connErr res).
Qed.

(** C3, amended. On a writer nothing has been sent on: for every request
    whose non-empty body fails to decode while a request could still be
    extracted from it, and for every decoded review that the handler
    rejects with an error, the server answers with the HTTP success status
    and the encoded exchange, whose response has [Allowed = false] and the
    error's text as its message (the exchange being one the encoder
    accepts, on a connection that takes the write). A decode error never
    makes for a non-2xx answer: whatever the request, when [serve] returns
    it has sent nothing at all, or the status is 200, or the status is 500
    with the plain-text marker, and the last only when the body could not
    be read or the encoder refused the exchange. *)
Theorem serve_denies_with_success_status
    s res (req : http_Request GoContext) :
  status res = None ->
  (forall data review err request js,
     Body req = Some (data, None) -> data <> [] -> connErr res = None ->
     decode data = (review, Some err) ->
     AdmissionReview.Request review = Some request ->
     Marshal (AdmissionReview.setResponse review
                (Some (denial (AdmissionRequest.UID request) err))) = Ok js ->
     outcome_of (serve s res req) = Ret (answered res js)) /\
  (forall data review request request' response err js,
     Body req = Some (data, None) -> data <> [] -> connErr res = None ->
     decode data = (review, None) ->
     AdmissionReview.Request review = Some request ->
     handler s (Ctx req) (api s) request (recorder s)
       = (request', response, Some err) ->
     Marshal (AdmissionReview.setResponse
                (AdmissionReview.setRequest review (Some request'))
                (Some (denial (AdmissionRequest.UID request') err))) = Ok js ->
     outcome_of (serve s res req) = Ret (answered res js)) /\
  (forall uid err js,
     AdmissionResponse.Allowed (denial uid err) = false /\
     AdmissionResponse.UID (denial uid err) = uid /\
     metav1.Message <$> AdmissionResponse.Result (denial uid err)
       = Some (Error err) /\
     status (answered res js) = Some StatusOK /\
     written (answered res js) = written res ++ js /\
     Header (answered res js) = Header res) /\
  (forall res',
     outcome_of (serve s res req) = Ret res' ->
     res' = res \/
     status res' = Some StatusOK \/
     (status res' = Some StatusInternalServerError /\
      Header res' !! "Content-Type" = Some "text/plain; charset=utf-8" /\
      ((exists data err, Body req = Some (data, Some err)) \/
       (exists data exchange t err,
          Body req = Some (data, None) /\
          processReq s (Ctx req) data = (Ret exchange, t) /\
          Marshal exchange = Err err)))).
Proof.
  intros Hs. split; [|split; [|split]].
  - intros data review err request js Hbody Hdata Hc Hdec Hreq Hm.
    rewrite (serve_nonempty _ _ _ _ _ _ Hbody Hdata
               (processReq_decode_failure _ _ _ _ _ _ Hdec Hreq)).
    by rewrite Hm, (Write_fresh _ _ Hs Hc).
  - intros data review request request' response err js
      Hbody Hdata Hc Hdec Hreq Hh Hm.
    rewrite (serve_nonempty _ _ _ _ _ _ Hbody Hdata
               (processReq_handler_failure _ _ _ _ _ _ _ _ Hdec Hreq Hh)).
    by rewrite Hm, (Write_fresh _ _ Hs Hc).
  - done.
  - intros res' Hret.
    destruct (Body req) as [[data [err|]]|] eqn:Hbody.
    + right; right. unfold serve in Hret. rewrite Hbody in Hret.
      cbn in Hret. injection Hret as <-.
      destruct (http_Error_fresh res (Error err) StatusInternalServerError Hs)
        as (Hst & Hct & _).
      split; [exact Hst|]. split; [exact Hct|]. left. by eexists _, _.
    + destruct data as [|b data].
      { left. unfold serve in Hret. rewrite Hbody in Hret. cbn in Hret.
        by injection Hret as <-. }
      destruct (processReq s (Ctx req) (b :: data)) as [[exchange| |] t]
        eqn:Hproc.
      * rewrite (serve_nonempty _ _ _ _ _ _ Hbody ltac:(done) Hproc)
          in Hret.
        cbn in Hret. injection Hret as <-.
        destruct (Marshal exchange) as [js | err] eqn:Hm.
        -- right; left. pose proof (Write_status res js Hs) as Hw.
           destruct (Write js res) as [res1 [n [err|]]]; cbn in Hw;
             [|exact Hw].
           by destruct (http_Error_late res1 (Error err)
                          StatusInternalServerError StatusOK Hw).
        -- right; right.
           destruct (http_Error_fresh res (Error err)
                       StatusInternalServerError Hs) as (Hst & Hct & _).
           split; [exact Hst|]. split; [exact Hct|]. right.
           by eexists _, _, _, _.
      * unfold serve in Hret. rewrite Hbody in Hret. cbn in Hret.
        rewrite Hproc in Hret. done.
      * unfold serve in Hret. rewrite Hbody in Hret. cbn in Hret.
        rewrite Hproc in Hret. done.
    + left. unfold serve in Hret. rewrite Hbody in Hret. cbn in Hret.
      by injection Hret as <-.
Qed.

(** What [serve] does when something fails, on a writer nothing has been
    sent on. If reading the body fails, or the encoder refuses the computed
    exchange, the server answers with status 500 and the error's text as a
    plain-text body, and does nothing else. If writing the encoded exchange
    fails, the server hands the error's text and 500 to [http.Error] on the
    writer the failed write has left, and gives the request up: the status
    is the 200 that the failed write had already put out, and nothing of
    the text gets through. *)
Theorem serve_failures s res (req : http_Request GoContext) :
  status res = None ->
  (forall data err,
     Body req = Some (data, Some err) ->
     serve s res req
       = (Ret (http_Error res (Error err) StatusInternalServerError), [])) /\
  (forall data exchange t err,
     Body req = Some (data, None) -> data <> [] ->
     processReq s (Ctx req) data = (Ret exchange, t) ->
     Marshal exchange = Err err ->
     serve s res req
       = (Ret (http_Error res (Error err) StatusInternalServerError), t)) /\
  (forall text,
     let res' := http_Error res text StatusInternalServerError in
     status res' = Some StatusInternalServerError /\
     Header res' !! "Content-Type" = Some "text/plain; charset=utf-8" /\
     (connErr res = None ->
      written res' = written res ++ bytes_of (text +:+ newline))) /\
  (forall data exchange t js err,
     Body req = Some (data, None) -> data <> [] ->
     processReq s (Ctx req) data = (Ret exchange, t) ->
     Marshal exchange = Ok js ->
     connErr res = Some err ->
     exists res',
       serve s res req = (Ret res', t) /\
       res' = http_Error (Write js res).1 (Error err)
                StatusInternalServerError /\
       status res' = Some StatusOK /\
       written res' = written res).
Proof.
  intros Hs. repeat split.
  - intros data err Hbody. unfold serve. by rewrite Hbody.
  - intros data exchange t err Hbody Hdata Hp Hm.
    by rewrite (serve_nonempty _ _ _ _ _ _ Hbody Hdata Hp), Hm.
  - by apply http_Error_fresh.
  - by apply http_Error_fresh.
  - by apply http_Error_fresh.
  - intros data exchange t js err Hbody Hdata Hp Hm Hc.
    assert (Hw : Write js res
                 = (mkWriter (Header res) (Some StatusOK) (written res)
                      (Some err), (0, Some err))).
    { unfold Write, WriteHeader. rewrite Hs. cbn. by rewrite Hc. }
    rewrite (serve_nonempty _ _ _ _ _ _ Hbody Hdata Hp), Hm, Hw.
    destruct (http_Error_late
                (mkWriter (Header res) (Some StatusOK) (written res) (Some err))
                (Error err) StatusInternalServerError StatusOK eq_refl)
      as [H1 H2].
    eexists. split; [reflexivity|]. split; [reflexivity|].
    split; [exact H1 | exact (H2 err eq_refl)].
Qed.

(** ** Further properties of the certificate store and the event loop *)

(** The certificate an update event finds on the disk: the pair at the two
    mounted paths, read and parsed as [updateCert] does it. *)
Definition loadable (disk : FS) : option Certificate :=
  match ReadPEMCreds disk MountPathTLSKeyPEM MountPathTLSCrtPEM with
  | Err _ => None
  | Ok creds =>
      match X509KeyPair (bytes_of (EncodePEM creds))
              (bytes_of (EncodePrivateKeyPEM creds)) with
      | Err _ => None
      | Ok c => Some c
      end
  end.

(** The certificate in service after an event, given the one before. *)
Definition rotate (c : option Certificate) (ev : WatchEvent)
  : option Certificate :=
  match ev with
  | Updated disk =>
      match loadable disk with
      | Some c' => Some c'
      | None => c
      end
  | Failed _ => c
  end.

(** Two servers that differ in nothing but the certificate. *)
Definition sameButCert (s s' : Server) : Prop :=
  Addr s' = Addr s /\ api s' = api s /\ handler s' = handler s /\
  recorder s' = recorder s.

Lemma run_step_rotate s ev :
  exists s' t,
    run_step s ev = (Ret s', t) /\
    cert s' = rotate (cert s) ev /\ sameButCert s s'.
Proof.
  destruct ev as [disk | cause]; [|by eexists _, _].
  unfold run_step, updateCert, rotate, loadable.
  destruct (ReadPEMCreds disk MountPathTLSKeyPEM MountPathTLSCrtPEM)
    as [creds | err]; [|by eexists _, _].
  destruct (X509KeyPair _ _) as [c | err]; by eexists _, _.
Qed.

(** Whatever the sequence of events, the loop ends up serving the
    certificate of the last update event whose key pair read and parsed,
    and the one it started with when there was none; address, API,
    handler and recorder of the server are never touched. *)
Theorem run_serves_last_good_update s events :
  exists s',
    outcome_of (run s events) = Ret s' /\
    cert s' = foldl rotate (cert s) events /\
    sameButCert s s'.
Proof.
  revert s. induction events as [|ev events IH]; intros s.
  - by exists s.
  - destruct (run_step_rotate s ev) as (s1 & t1 & Hstep & Hcert & Hsame).
    destruct (IH s1) as (s2 & Hrun & Hcert2 & Hsame2).
    exists s2. cbn [run foldl]. rewrite Hstep, bind_Ret.
    split; [exact Hrun|]. split; [by rewrite Hcert2, Hcert|].
    destruct Hsame as (H1 & H2 & H3 & H4), Hsame2 as (G1 & G2 & G3 & G4).
    repeat split; congruence.
Qed.

(** The paths of the credentials reads in a trace, and the disks of the
    update events in a sequence of events, in order. *)
Definition credsReads (t : list Event) : list (string * string) :=
  omap (fun e => match e with
                 | ReadCreds keyPath crtPath => Some (keyPath, crtPath)
                 | _ => None
                 end) t.

Definition updates (events : list WatchEvent) : list FS :=
  omap (fun ev => match ev with
                  | Updated disk => Some disk
                  | Failed _ => None
                  end) events.

Lemma trace_bind_Ret {A B} (m : M A) (a : A) (k : A -> M B) :
  outcome_of m = Ret a ->
  trace_of (m ≫= k) = trace_of m ++ trace_of (k a).
Proof.
  destruct m as [o t]. cbn. intros ->. by destruct (k a).
Qed.

(** The loop reads the mounted pair exactly once for every update event,
    in the order of the events, and never for an error event. *)
Theorem run_reads_once_per_update s events :
  credsReads (trace_of (run s events))
    = (fun _ => (MountPathTLSKeyPEM, MountPathTLSCrtPEM)) <$> updates events.
Proof.
  revert s. induction events as [|ev events IH]; intros s; [done|].
  cbn [run]. destruct (run_step_rotate s ev) as (s1 & t1 & Hstep & _).
  rewrite (trace_bind_Ret _ s1) by by rewrite Hstep.
  unfold credsReads in *. rewrite omap_app, IH. clear IH.
  destruct ev as [disk | cause]; [|done].
  cbn [updates omap fmap list_fmap]. f_equal.
  unfold run_step, updateCert.
  destruct (ReadPEMCreds disk MountPathTLSKeyPEM MountPathTLSCrtPEM)
    as [creds | err]; [|done].
  by destruct (X509KeyPair _ _) as [c | err].
Qed.

(** *** Construction *)

(** The server [NewServer] assembles, with the certificate of the first
    load in it. *)
Definition assembled (a : API) (addr : string) (h : Handler)
    (component : string) (c : Certificate) : Server :=
  mkServer addr a h (Some c) (NewRecorder a component).

(** [NewServer], path by path. *)
Lemma NewServer_cases disk ctx a addr certPath h component :
  NewServer disk ctx a addr certPath h component =
    match StartWatching disk ctx certPath with
    | Some (Some err) =>
        (Exit 1,
         [Watch certPath;
          Log FatalLevel ("Failed to start creds watcher: " +:+ Error err)])
    | _ =>
        match ReadPEMCreds disk MountPathTLSKeyPEM MountPathTLSCrtPEM with
        | Err err =>
            (Exit 1,
             [Watch certPath;
              ReadCreds MountPathTLSKeyPEM MountPathTLSCrtPEM;
              Log FatalLevel
                ("Failed to initialized certificate: "
                   +:+ Error (Errorf "failed to read cert from disk: " err))])
        | Ok creds =>
            match X509KeyPair (bytes_of (EncodePEM creds))
                    (bytes_of (EncodePrivateKeyPEM creds)) with
            | Err err =>
                (Exit 1,
                 [Watch certPath;
                  ReadCreds MountPathTLSKeyPEM MountPathTLSCrtPEM;
                  Log FatalLevel
                    ("Failed to initialized certificate: " +:+ Error err)])
            | Ok c =>
                (Ret (assembled a addr h component c),
                 [Watch certPath;
                  ReadCreds MountPathTLSKeyPEM MountPathTLSCrtPEM;
                  Log DebugLevel "Certificate has been updated"])
            end
        end
    end.
Proof.
  unfold NewServer, updateCert, watcherGoroutine.
  destruct (StartWatching disk ctx certPath) as [[err|]|]; cbn; try done;
    destruct (ReadPEMCreds disk MountPathTLSKeyPEM MountPathTLSCrtPEM)
      as [creds | err]; cbn; try done;
    by destruct (X509KeyPair _ _) as [c | err].
Qed.




(** C9, amended. For every server instance, the certificate and key are
    read, at startup and at every rotation, from the two mounted files
    named by the constants [MountPathTLSKeyPEM] and [MountPathTLSCrtPEM],
    whatever [certPath] is: every read of the credentials goes to these
    two paths; a server that has come up has read them once at startup
    and once for every update event, and serves the last pair that loaded
    from them. The [certPath] argument of [NewServer] is handed to the
    watcher and to nothing else: two constructions whose watchers fare
    alike on their paths come to the same, and differ only in the path
    they have watched. *)
Theorem credentials_read_from_mount_paths disk ctx a addr h component :
  (forall certPath events,
     Forall readsMountPaths
       (trace_of (serverLife disk ctx a addr certPath h component events))) /\
  (forall certPath events s,
     outcome_of (serverLife disk ctx a addr certPath h component events)
       = Ret s ->
     credsReads
       (trace_of (serverLife disk ctx a addr certPath h component events))
       = (MountPathTLSKeyPEM, MountPathTLSCrtPEM)
           :: ((fun _ => (MountPathTLSKeyPEM, MountPathTLSCrtPEM))
                 <$> updates events) /\
     exists c0,
       loadable disk = Some c0 /\
       cert s = foldl rotate (Some c0) events) /\
  (forall certPath certPath',
     StartWatching disk ctx certPath = StartWatching disk ctx certPath' ->
     exists o t,
       NewServer disk ctx a addr certPath h component
         = (o, Watch certPath :: t) /\
       NewServer disk ctx a addr certPath' h component
         = (o, Watch certPath' :: t)).
Proof.
  split; [|split].
  - intros certPath events. apply trace_bind_Forall; [|intros; apply run_reads].
    rewrite NewServer_cases.
    destruct (StartWatching disk ctx certPath) as [[err|]|];
      try (by repeat constructor);
      destruct (ReadPEMCreds disk MountPathTLSKeyPEM MountPathTLSCrtPEM)
        as [creds | err]; try (by repeat constructor);
      destruct (X509KeyPair _ _) as [c | err]; by repeat constructor.
  - intros certPath events s. unfold serverLife. rewrite NewServer_cases.
    unfold loadable.
    assert (Hlife : forall c0 t,
              credsReads t
                = [(MountPathTLSKeyPEM, MountPathTLSCrtPEM)] ->
              outcome_of ((Ret (assembled a addr h component c0), t)
                            ≫= fun s => run s events) = Ret s ->
              credsReads
                (trace_of ((Ret (assembled a addr h component c0), t)
                             ≫= fun s => run s events))
                = (MountPathTLSKeyPEM, MountPathTLSCrtPEM)
                    :: ((fun _ => (MountPathTLSKeyPEM, MountPathTLSCrtPEM))
                          <$> updates events) /\
              exists c, Some c0 = Some c /\
                        cert s = foldl rotate (Some c) events).
    { intros c0 t Ht. rewrite bind_Ret. cbn [outcome_of trace_of fst snd].
      intros Hret. split.
      - unfold credsReads in *. rewrite omap_app, Ht.
        fold (credsReads (trace_of (run (assembled a addr h component c0)
                                      events))).
        by rewrite run_reads_once_per_update.
      - exists c0. split; [done|].
        destruct (run_serves_last_good_update
                    (assembled a addr h component c0) events)
          as (s' & Hrun & Hcert & _).
        unfold outcome_of in Hrun, Hret. cbn beta in Hret.
        cbn [fst] in Hret. rewrite Hrun in Hret.
        injection Hret as <-. exact Hcert. }
    destruct (StartWatching disk ctx certPath) as [[err|]|]; try done;
      destruct (ReadPEMCreds disk MountPathTLSKeyPEM MountPathTLSCrtPEM)
        as [creds | err]; try done;
      destruct (X509KeyPair _ _) as [c0 | err]; try done; by apply Hlife.
  - intros certPath certPath' Heq. rewrite !NewServer_cases, <- Heq.
    destruct (StartWatching disk ctx certPath) as [[err|]|];
      try (by eexists _, _);
      destruct (ReadPEMCreds disk MountPathTLSKeyPEM MountPathTLSCrtPEM)
        as [creds | err]; try (by eexists _, _);
      destruct (X509KeyPair _ _) as [c | err]; by eexists _, _.
Qed.

(** ** Further properties of the request path *)

(** [processReq] and [serve] look at the handler, the API and the recorder
    of the server, and at nothing else of it. *)
Lemma processReq_frame s s' ctx data :
  sameButCert s s' -> processReq s' ctx data = processReq s ctx data.
Proof.
  intros (_ & Ha & Hh & Hr). unfold processReq. by rewrite Ha, Hh, Hr.
Qed.

Lemma serve_frame s s' res req :
  sameButCert s s' -> serve s' res req = serve s res req.
Proof.
  intros Hsame. unfold serve.
  destruct (match Body req with Some body => ReadAll body | None => _ end)
    as [data [err|]]; [done|].
  destruct (decide (length data = 0)); [done|].
  by rewrite (processReq_frame _ _ _ _ Hsame).
Qed.

(** Rotation does not reach the request path: whatever events the loop has
    taken, the server answers every request exactly as it did before. *)
Theorem rotation_leaves_requests_alone s events :
  exists s',
    outcome_of (run s events) = Ret s' /\
    (forall res req, serve s' res req = serve s res req) /\
    (forall ctx data, processReq s' ctx data = processReq s ctx data).
Proof.
  destruct (run_serves_last_good_update s events) as (s' & Hrun & _ & Hsame).
  exists s'. split; [exact Hrun|].
  split; intros; [by apply serve_frame | by apply processReq_frame].
Qed.

(** The requests the handler was called with, in a trace. *)
Definition handlerCalls (t : list Event) : list AdmissionRequest.t :=
  omap (fun e => match e with
                 | HandlerCall request => Some request
                 | _ => None
                 end) t.

Lemma processReq_handlerCalls s ctx data :
  handlerCalls (trace_of (processReq s ctx data)) =
    match decode data with
    | (review, None) =>
        match AdmissionReview.Request review with
        | Some request => [request]
        | None => []
        end
    | (_, Some _) => []
    end.
Proof.
  unfold processReq.
  destruct (decode data) as [review [err|]];
    destruct (AdmissionReview.Request review) as [request|]; try done.
  cbn. by destruct (handler s ctx (api s) request (recorder s))
           as [[request' response] [err|]].
Qed.

(** While it serves one request, the server calls the handler at most
    once: exactly once, with the request as decoded, when the body was read
    in full, is not empty, and decodes without error to a review that holds
    a request; not at all in every other case (no body, empty body, read
    error, decode error, no request). *)
Theorem serve_calls_handler_at_most_once s res req :
  handlerCalls (trace_of (serve s res req)) =
    match Body req with
    | Some (data, None) =>
        match data, decode data with
        | _ :: _, (review, None) =>
            match AdmissionReview.Request review with
            | Some request => [request]
            | None => []
            end
        | _, _ => []
        end
    | _ => []
    end.
Proof.
  unfold serve.
  destruct (Body req) as [[data [err|]]|]; try done.
  unfold ReadAll. destruct data as [|b data]; [done|].
  destruct (decide (length (b :: data) = 0)) as [Hlen|_]; [done|].
  rewrite <- processReq_handlerCalls with (s := s) (ctx := Ctx req).
  destruct (processReq s (Ctx req) (b :: data)) as [[exchange| |] t];
    cbn; try done.
  destruct (Marshal exchange) as [js | err]; cbn; [|by rewrite app_nil_r].
  destruct (Write js res) as [res' [n [err|]]]; cbn; by rewrite app_nil_r.
Qed.

(** What [processReq] comes to is decided by the request that decoding
    has left in the review. Without one, it panics on the nil request, and
    the handler has not been called. With one and a decode error, it returns
    an exchange, and the handler has not been called. With one and no
    decode error, the handler is called, and once the handler answers,
    [processReq] returns an exchange. *)
Theorem processReq_outcome_by_request s ctx data :
  match AdmissionReview.Request (decode data).1, (decode data).2 with
  | None, _ =>
      outcome_of (processReq s ctx data) = Panic nilDereference /\
      handlerCalls (trace_of (processReq s ctx data)) = []
  | Some request, Some err =>
      (exists exchange, outcome_of (processReq s ctx data) = Ret exchange) /\
      handlerCalls (trace_of (processReq s ctx data)) = []
  | Some request, None =>
      handlerCalls (trace_of (processReq s ctx data)) = [request] /\
      forall request' response err,
        handler s ctx (api s) request (recorder s)
          = (request', response, err) ->
        exists exchange, outcome_of (processReq s ctx data) = Ret exchange
  end.
Proof.
  rewrite processReq_handlerCalls. unfold processReq.
  destruct (decode data) as [review [err|]]; cbn [fst snd];
    destruct (AdmissionReview.Request review) as [request|]; cbn;
    try done; try (split; [by eexists | done]).
  split; [done|]. intros request' response err Hh. rewrite Hh.
  destruct err; by eexists.
Qed.

(** What [serve] comes to, case by case. It returns when there is no
    body, when the body cannot be read, and when the body is empty. For a
    body that is read in full and is not empty: if decoding, failed or not,
    has left no request in the review, [serve] panics on the nil request;
    if decoding failed and left a request, it returns; if decoding
    succeeded and left a request, the handler is called, and once the
    handler answers, [serve] returns. [serve] has no exit of its own. *)
Theorem serve_outcome s res req :
  match Body req with
  | None => outcome_of (serve s res req) = Ret res
  | Some (_, Some _) => exists res', outcome_of (serve s res req) = Ret res'
  | Some ([], None) => outcome_of (serve s res req) = Ret res
  | Some (data, None) =>
      match AdmissionReview.Request (decode data).1, (decode data).2 with
      | None, _ => outcome_of (serve s res req) = Panic nilDereference
      | Some request, Some _ =>
          exists res', outcome_of (serve s res req) = Ret res'
      | Some request, None =>
          forall request' response err,
            handler s (Ctx req) (api s) request (recorder s)
              = (request', response, err) ->
            exists res', outcome_of (serve s res req) = Ret res'
      end
  end.
Proof.
  destruct (Body req) as [[data [err|]]|] eqn:Hbody.
  - unfold serve. rewrite Hbody. destruct data; by eexists.
  - destruct data as [|b data]; [unfold serve; by rewrite Hbody|].
    assert (Hret : forall exchange t,
              processReq s (Ctx req) (b :: data) = (Ret exchange, t) ->
              exists res', outcome_of (serve s res req) = Ret res').
    { intros exchange t Hproc.
      rewrite (serve_nonempty _ _ _ _ _ _ Hbody ltac:(done) Hproc).
      by eexists. }
    destruct (decode (b :: data)) as [review [err|]] eqn:Hdec; cbn [fst snd];
      destruct (AdmissionReview.Request review) as [request|] eqn:Hreq.
    + eapply Hret. by apply processReq_decode_failure.
    + unfold serve. rewrite Hbody. cbn. unfold processReq.
      by rewrite Hdec, Hreq.
    + intros request' response [err|] Hh.
      * eapply Hret. by eapply processReq_handler_failure.
      * eapply Hret. by eapply processReq_handler_success.
    + unfold serve. rewrite Hbody. cbn. unfold processReq.
      by rewrite Hdec, Hreq.
  - unfold serve. by rewrite Hbody.
Qed.

(** The happy path from the body to the wire: a body that is read in full,
    is not empty and decodes to a review with a request, a handler that
    answers without error, an exchange the encoder accepts, and a writer
    nothing has been sent on over a healthy connection. The server then
    answers with status 200, sets no header field of its own, and sends
    exactly the encoding of the review with the handler's response in it;
    its trace is the two entries that announce the request and the one call
    of the handler. *)
Theorem serve_answers_with_handler_response
    s res (req : http_Request GoContext) data review request request'
    response js :
  Body req = Some (data, None) -> data <> [] ->
  decode data = (review, None) ->
  AdmissionReview.Request review = Some request ->
  handler s (Ctx req) (api s) request (recorder s)
    = (request', response, None) ->
  Marshal (AdmissionReview.mk (AdmissionReview.Kind review)
             (AdmissionReview.APIVersion review) (Some request') response)
    = Ok js ->
  status res = None -> connErr res = None ->
  exists res',
    serve s res req = (Ret res', preamble request) /\
    status res' = Some StatusOK /\
    written res' = written res ++ js /\
    Header res' = Header res.
Proof.
  intros Hbody Hdata Hdec Hreq Hh Hm Hs Hc.
  rewrite (serve_nonempty _ _ _ _ _ _ Hbody Hdata
             (processReq_handler_success _ _ _ _ _ _ _ Hdec Hreq Hh)).
  unfold AdmissionReview.setResponse, AdmissionReview.setRequest. cbn.
  rewrite Hm, (Write_fresh _ _ Hs Hc). by eexists.
Qed.

(** What the body says about the response never reaches the exchange: two
    bodies that decode alike except for the response they carry are
    processed alike, trace included. The response of the exchange is the
    processor's or the handler's, never the client's. *)
Theorem processReq_ignores_decoded_response
    s ctx data data' review response err :
  decode data = (review, err) ->
  decode data' = (AdmissionReview.setResponse review response, err) ->
  processReq s ctx data' = processReq s ctx data.
Proof.
  intros Hdec Hdec'. unfold processReq. rewrite Hdec, Hdec'.
  destruct review as [kind version request resp]. cbn.
  by destruct err as [err|]; destruct request as [request|].
Qed.

(** An exchange without a response leaves [processReq] in one case only:
    the handler returned a nil response together with a nil error. In
    every exchange it returns, kind and API version are the decoded ones. *)
Theorem processReq_response_nil_iff s ctx data exchange :
  outcome_of (processReq s ctx data) = Ret exchange ->
  (AdmissionReview.Response exchange = None <->
   exists request request',
     (decode data).2 = None /\
     AdmissionReview.Request (decode data).1 = Some request /\
     handler s ctx (api s) request (recorder s) = (request', None, None)) /\
  AdmissionReview.Kind exchange = AdmissionReview.Kind (decode data).1 /\
  AdmissionReview.APIVersion exchange
    = AdmissionReview.APIVersion (decode data).1.
Proof.
  unfold processReq.
  destruct (decode data) as [review [err|]]; cbn [fst snd];
    destruct (AdmissionReview.Request review) as [request|]; cbn;
    try done.
  - intros [= <-]. repeat split; try done. by intros (? & ? & [=] & _).
  - destruct (handler s ctx (api s) request (recorder s))
      as [[request' response] [err|]] eqn:Hh; cbn; intros [= <-].
    + repeat split; try done.
      intros (r & r' & _ & [= <-] & Hh'). rewrite Hh in Hh'. done.
    + repeat split; cbn.
      * intros ->. by exists request, request'.
      * intros (r & r' & _ & [= <-] & Hh'). rewrite Hh in Hh'.
        by injection Hh' as _ ->.
Qed.

End Webhook.

Arguments mkServer {GoContext API EventRecorder Certificate}.
Arguments Addr {GoContext API EventRecorder Certificate} s.
Arguments api {GoContext API EventRecorder Certificate} s.
Arguments handler {GoContext API EventRecorder Certificate} s.
Arguments cert {GoContext API EventRecorder Certificate} s.
Arguments recorder {GoContext API EventRecorder Certificate} s.
Arguments getCertificate {GoContext API EventRecorder Certificate} s.

(** ** A concrete instance

    The theorems above hold for every YAML decoder, JSON encoder,
    credentials reader, key-pair parser and watcher. The closed examples
    below need one of each. The decoder knows three bodies, on which it
    does what the library does, and takes every other body, like a lone
    brace, not to be YAML. The others are toys and do not
    reproduce the libraries: whatever bytes lie at the two paths count as
    credentials, any two non-empty blocks count as a key pair (the real
    reader and parser insist on PEM), the encoder writes a few fields
    only, and a watcher starts on a path when something on the disk lies
    under it. *)

Module Sample.

(** pkg/k8s mounts the credentials under [/var/run/linkerd/tls]. *)
Definition MountPathTLSKeyPEM : string := "/var/run/linkerd/tls/tls.key".
Definition MountPathTLSCrtPEM : string := "/var/run/linkerd/tls/tls.crt".

Definition noSuchFile (path : string) : error :=
  mkError ("open " +:+ path +:+ ": no such file or directory").

(** A watcher starts on a path when some file of the disk lies under it. *)
Definition StartWatching (disk : FS) (_ : unit) (path : string)
  : option (option error) :=
  if existsb (fun file => String.prefix path file.1) (map_to_list disk)
  then None
  else Some (Some (noSuchFile path)).

(** Credentials are the certificate block and the key block as read. *)
Definition ReadPEMCreds (disk : FS) (keyPath crtPath : string)
  : result (bytes * bytes) :=
  match disk !! keyPath with
  | None => Err (noSuchFile keyPath)
  | Some keyb =>
      match disk !! crtPath with
      | None => Err (noSuchFile crtPath)
      | Some crtb => Ok (crtb, keyb)
      end
  end.

Definition EncodePEM (creds : bytes * bytes) : string :=
  string_of_list_byte creds.1.

Definition EncodePrivateKeyPEM (creds : bytes * bytes) : string :=
  string_of_list_byte creds.2.

(** A key pair parses when neither block is empty. *)
Definition X509KeyPair (certPEMBlock keyPEMBlock : bytes)
  : result (bytes * bytes) :=
  match certPEMBlock, keyPEMBlock with
  | [], _ =>
      Err (mkError "tls: failed to find any PEM data in certificate input")
  | _, [] => Err (mkError "tls: failed to find any PEM data in key input")
  | _, _ => Ok (certPEMBlock, keyPEMBlock)
  end.

Definition abc : AdmissionRequest.t :=
  AdmissionRequest.mk "abc" "" "" "" [] [] None.

Definition notYAML : error :=
  mkError
    "error converting YAML to JSON: yaml: line 1: did not find expected node content".

Definition wrongType : error :=
  mkError
    "error unmarshaling JSON: json: cannot unmarshal number into Go struct field AdmissionReview.response of type v1beta1.AdmissionResponse".

(** The decoder on four bodies: an empty mapping decodes and sets nothing;
    a mapping with a request decodes and sets the request; a mapping whose
    [response] is a number is reported as a type error after the request
    has been set; anything else is taken not to be YAML, and the review is
    left untouched. *)
Definition Unmarshal (data : bytes) (into : AdmissionReview.t)
  : AdmissionReview.t * option error :=
  let text := string_of_list_byte data in
  if String.eqb text "{}" then (into, None)
  else if String.eqb text "{request: {uid: abc}}" then
    (AdmissionReview.setRequest into (Some abc), None)
  else if String.eqb text "{request: {uid: abc}, response: 5}" then
    (AdmissionReview.setRequest into (Some abc), Some wrongType)
  else (into, Some notYAML).

Definition quoted (s : string) : string :=
  let q := String (ascii_of_nat 34) EmptyString in q +:+ s +:+ q.

Definition member (key value : string) : string :=
  quoted key +:+ ":" +:+ value.

Definition encodeRequest (r : option AdmissionRequest.t) : string :=
  match r with
  | None => "null"
  | Some r => "{" +:+ member "uid" (quoted (AdmissionRequest.UID r)) +:+ "}"
  end.

Definition encodeResponse (r : option AdmissionResponse.t) : string :=
  match r with
  | None => "null"
  | Some r =>
      "{" +:+ member "uid" (quoted (AdmissionResponse.UID r)) +:+ ","
        +:+ member "allowed"
              (if AdmissionResponse.Allowed r then "true" else "false")
        +:+ match AdmissionResponse.Result r with
            | None => ""
            | Some st =>
                "," +:+ member "status"
                  ("{" +:+ member "message" (quoted (metav1.Message st))
                     +:+ "}")
            end
        +:+ "}"
  end.

(** The encoder writes the request and the response; it refuses a review
    whose request carries an object that is not JSON (here: a lone brace). *)
Definition Marshal (r : AdmissionReview.t) : result bytes :=
  match AdmissionRequest.Object <$> AdmissionReview.Request r with
  | Some [x7b] =>
      Err (mkError
             "json: error calling MarshalJSON for type runtime.RawExtension: unexpected end of JSON input")
  | _ =>
      Ok (bytes_of
            ("{" +:+ member "request" (encodeRequest (AdmissionReview.Request r))
               +:+ "," +:+ member "response"
                             (encodeResponse (AdmissionReview.Response r))
               +:+ "}"))
  end.

Definition fmtRequest (r : AdmissionRequest.t) : string :=
  "&{UID:" +:+ AdmissionRequest.UID r +:+ "}".

Definition NewRecorder (_ : unit) (component : string) : string := component.

Abbreviation Handler := (Handler unit unit string).
Abbreviation Server := (Server unit unit string (bytes * bytes)).

(** Four handlers: one allows and echoes the UID, one allows and leaves
    the UID of its response unset, one fails, one allows after overwriting
    the object of the request it was given with a lone brace. *)
Definition allow : Handler := fun _ _ request _ =>
  (request,
   Some (AdmissionResponse.mk (AdmissionRequest.UID request) true None []
           None ∅),
   None).

Definition allowNoUID : Handler := fun _ _ request _ =>
  (request, Some (AdmissionResponse.mk "" true None [] None ∅), None).

Definition reject : Handler := fun _ _ request _ =>
  (request, None, Some (mkError "no such namespace")).

Definition scribble : Handler := fun _ _ request _ =>
  (AdmissionRequest.mk (AdmissionRequest.UID request)
     (AdmissionRequest.Name request) (AdmissionRequest.Namespace request)
     (AdmissionRequest.Operation request) [x7b]
     (AdmissionRequest.OldObject request) (AdmissionRequest.DryRun request),
   Some (AdmissionResponse.mk (AdmissionRequest.UID request) true None []
           None ∅),
   None).

Definition server (h : Handler) : Server :=
  mkServer ":8443" tt h None "webhook".

Definition processReq (s : Server) (data : bytes) : M AdmissionReview.t :=
  processReq unit unit string (bytes * bytes) Unmarshal fmtRequest s tt data.

Definition serve (s : Server) (res : ResponseWriter) (req : http_Request unit)
  : M ResponseWriter :=
  serve unit unit string (bytes * bytes) Unmarshal Marshal fmtRequest
    s res req.

Definition updateCert (s : Server) (disk : FS) : M (Server * option error) :=
  updateCert unit unit string (bytes * bytes) (bytes * bytes)
    MountPathTLSKeyPEM MountPathTLSCrtPEM ReadPEMCreds EncodePEM
    EncodePrivateKeyPEM X509KeyPair s disk.

Definition NewServer (disk : FS) (certPath : string) (h : Handler)
  : M Server :=
  NewServer unit unit string (bytes * bytes) (bytes * bytes)
    MountPathTLSKeyPEM MountPathTLSCrtPEM ReadPEMCreds EncodePEM
    EncodePrivateKeyPEM StartWatching X509KeyPair NewRecorder disk tt tt
    ":8443" certPath h "webhook".

(** A writer nothing has been written to, on a healthy connection and on
    a broken one. *)
Definition fresh : ResponseWriter := mkWriter ∅ None [] None.
Definition broken : ResponseWriter :=
  mkWriter ∅ None [] (Some (mkError "write: broken pipe")).

Definition post (body : string) : http_Request unit :=
  mkRequest (Some (bytes_of body, None)) tt.

End Sample.

(** ** The request path on concrete bodies *)

Definition notYAMLBody : string := "{".
Definition emptyMappingBody : string := "{}".
Definition reviewBody : string := "{request: {uid: abc}}".
Definition typeErrorBody : string := "{request: {uid: abc}, response: 5}".

(** C1. [processReq] is not total. A body that is not YAML leaves the
    review without a request; building the denial then reads the UID
    through the nil request and panics, after the decode error has been
    logged. A body that decodes to a review without a request panics on
    the same read, in the entry that announces the request. *)
Theorem processReq_panics_without_request :
  Sample.processReq (Sample.server Sample.allow) (bytes_of notYAMLBody)
    = (Panic nilDereference,
       [Log ErrorLevel
          ("failed to decode data. Reason: " +:+ Error Sample.notYAML)]) /\
  Sample.processReq (Sample.server Sample.allow) (bytes_of emptyMappingBody)
    = (Panic nilDereference, []).
Proof. split; reflexivity. Qed.

Lemma processReq_decode_failure_without_request_witness :
  outcome_of
    (Sample.processReq (Sample.server Sample.reject) (bytes_of notYAMLBody))
    = Panic nilDereference.
Proof.
  exact (proj1 (processReq_decode_failure_without_request
                  unit unit string (bytes * bytes) Sample.Unmarshal
                  Sample.fmtRequest (Sample.server Sample.reject) tt
                  (bytes_of notYAMLBody) AdmissionReview.zero Sample.notYAML
                  eq_refl eq_refl)).
Defined.

(** The denial written for the type error, and the review as the sample
    decoder leaves it. *)
Definition abcReview : AdmissionReview.t :=
  AdmissionReview.mk "" "" (Some Sample.abc) None.

Definition abcDenied (err : error) : AdmissionReview.t :=
  AdmissionReview.setResponse abcReview (Some (denial "abc" err)).

(** C3, counterexample. A body that is not YAML gets no HTTP answer from
    [serve] at all (the goroutine panics before anything is written), and a
    body whose decoding fails on a type error is answered with status 200,
    no plain-text marker, and the encoded exchange as body: in neither case
    with a non-2xx status and a plain-text message. *)
Lemma undecodable_body_not_answered_with_error_status :
  outcome_of
    (Sample.serve (Sample.server Sample.allow) Sample.fresh
       (Sample.post notYAMLBody)) = Panic nilDereference /\
  (decode Sample.Unmarshal (bytes_of typeErrorBody)).2
    = Some Sample.wrongType /\
  exists res js,
    outcome_of
      (Sample.serve (Sample.server Sample.allow) Sample.fresh
         (Sample.post typeErrorBody)) = Ret res /\
    status res = Some StatusOK /\
    Header res !! "Content-Type" = None /\
    Sample.Marshal (abcDenied Sample.wrongType) = Ok js /\
    written res = js.
Proof.
  split; [reflexivity|]. split; [reflexivity|].
  eexists _, _. repeat split.
Qed.

Lemma serve_denies_with_success_status_witness :
  (exists js,
     Sample.Marshal (abcDenied Sample.wrongType) = Ok js /\
     outcome_of
       (Sample.serve (Sample.server Sample.allow) Sample.fresh
          (Sample.post typeErrorBody)) = Ret (answered Sample.fresh js)) /\
  (exists js,
     Sample.Marshal (abcDenied (mkError "no such namespace")) = Ok js /\
     outcome_of
       (Sample.serve (Sample.server Sample.reject) Sample.fresh
          (Sample.post reviewBody)) = Ret (answered Sample.fresh js)).
Proof.
  split; eexists; (split; [reflexivity|]).
  - refine (proj1 (serve_denies_with_success_status
                     unit unit string (bytes * bytes) Sample.Unmarshal
                     Sample.Marshal Sample.fmtRequest
                     (Sample.server Sample.allow) Sample.fresh
                     (Sample.post typeErrorBody) eq_refl)
              (bytes_of typeErrorBody) abcReview Sample.wrongType
              Sample.abc _ eq_refl _ eq_refl eq_refl eq_refl eq_refl).
    discriminate.
  - refine (proj1 (proj2 (serve_denies_with_success_status
                     unit unit string (bytes * bytes) Sample.Unmarshal
                     Sample.Marshal Sample.fmtRequest
                     (Sample.server Sample.reject) Sample.fresh
                     (Sample.post reviewBody) eq_refl))
              (bytes_of reviewBody) abcReview Sample.abc Sample.abc None
              (mkError "no such namespace") _
              eq_refl _ eq_refl eq_refl eq_refl eq_refl eq_refl).
    discriminate.
Defined.

Lemma serve_empty_body_witness :
  Sample.serve (Sample.server Sample.allow) Sample.fresh (mkRequest None tt)
    = (Ret Sample.fresh, [Log WarnLevel "received empty payload"]) /\
  Sample.serve (Sample.server Sample.allow) Sample.fresh
    (mkRequest (Some ([], None)) tt)
    = (Ret Sample.fresh, [Log WarnLevel "received empty payload"]).
Proof.
  split.
  - exact (serve_empty_body unit unit string (bytes * bytes) Sample.Unmarshal
             Sample.Marshal Sample.fmtRequest (Sample.server Sample.allow)
             Sample.fresh (mkRequest None tt) (or_introl eq_refl)).
  - exact (serve_empty_body unit unit string (bytes * bytes) Sample.Unmarshal
             Sample.Marshal Sample.fmtRequest (Sample.server Sample.allow)
             Sample.fresh (mkRequest (Some ([], None)) tt)
             (or_intror eq_refl)).
Defined.

(** The answer of the handler that allows. *)
Definition abcAllowed : AdmissionResponse.t :=
  AdmissionResponse.mk "abc" true None [] None ∅.

Lemma processReq_forwards_handler_response_witness :
  exists exchange,
    outcome_of
      (Sample.processReq (Sample.server Sample.allow) (bytes_of reviewBody))
      = Ret exchange /\
    AdmissionReview.Response exchange = Some abcAllowed /\
    exchange = AdmissionReview.mk "" "" (Some Sample.abc) (Some abcAllowed).
Proof.
  exact (processReq_forwards_handler_response unit unit string
           (bytes * bytes) Sample.Unmarshal Sample.fmtRequest
           (Sample.server Sample.allow) tt (bytes_of reviewBody) abcReview
           Sample.abc Sample.abc abcAllowed eq_refl eq_refl eq_refl).
Defined.

(** C6, counterexample. The body parses into a request with UID [abc];
    the handler allows it with a response whose UID it has not set; the
    exchange [processReq] returns carries that response, with the empty
    UID, next to the request with UID [abc]. *)
Lemma handler_response_UID_differs_from_request_UID :
  decode Sample.Unmarshal (bytes_of reviewBody) = (abcReview, None) /\
  exists exchange request response,
    outcome_of
      (Sample.processReq (Sample.server Sample.allowNoUID)
         (bytes_of reviewBody)) = Ret exchange /\
    AdmissionReview.Request exchange = Some request /\
    AdmissionReview.Response exchange = Some response /\
    AdmissionRequest.UID request = "abc" /\
    AdmissionResponse.UID response = "" /\
    AdmissionResponse.UID response <> AdmissionRequest.UID request.
Proof.
  split; [reflexivity|]. eexists _, _, _. repeat split. discriminate.
Qed.

Lemma processReq_response_UID_witness :
  exists exchange,
    outcome_of
      (Sample.processReq (Sample.server Sample.reject) (bytes_of reviewBody))
      = Ret exchange /\
    AdmissionReview.Request exchange = Some Sample.abc /\
    AdmissionResponse.UID <$> AdmissionReview.Response exchange = Some "abc".
Proof.
  destruct (processReq_response_UID unit unit string (bytes * bytes)
              Sample.Unmarshal Sample.fmtRequest (Sample.server Sample.reject)
              tt (bytes_of reviewBody) abcReview Sample.abc eq_refl eq_refl)
    as (exchange & request' & Hret & Hreq & Huid).
  exists exchange. split; [exact Hret|].
  assert (request' = Sample.abc) as ->.
  { cbv in Hret. injection Hret as <-. cbv in Hreq. by injection Hreq as <-. }
  split; [exact Hreq | exact Huid].
Defined.

(** ** The certificate store on concrete disks *)

Definition pem (s : string) : bytes := bytes_of s.

(** Nothing mounted; the pair mounted where pkg/k8s says; the certificate
    file caught empty in the middle of a rotation; the pair under a
    directory of its own. *)
Definition nothingMounted : FS := ∅.

Definition mounted (crt key : string) : FS :=
  {[ Sample.MountPathTLSKeyPEM := pem key;
     Sample.MountPathTLSCrtPEM := pem crt ]}.

Definition elsewhere (crt key : string) : FS :=
  {[ "/etc/webhook/tls.key" := pem key; "/etc/webhook/tls.crt" := pem crt ]}.

(** A server that already serves a certificate. *)
Definition serving : Sample.Server :=
  mkServer ":8443" tt Sample.allow (Some (pem "crt A", pem "key A")) "webhook".

Lemma updateCert_failure_keeps_certificate_witness :
  (exists err,
     outcome_of (Sample.updateCert serving nothingMounted)
       = Ret (serving, Some err) /\
     err = Errorf "failed to read cert from disk: "
             (Sample.noSuchFile Sample.MountPathTLSKeyPEM)) /\
  (exists err,
     outcome_of (Sample.updateCert serving (mounted "" "key B"))
       = Ret (serving, Some err) /\
     getCertificate serving = (Some (pem "crt A", pem "key A"), None)).
Proof.
  split.
  - destruct (updateCert_failure_keeps_certificate unit unit string
                (bytes * bytes) (bytes * bytes) Sample.MountPathTLSKeyPEM
                Sample.MountPathTLSCrtPEM Sample.ReadPEMCreds Sample.EncodePEM
                Sample.EncodePrivateKeyPEM Sample.X509KeyPair serving
                nothingMounted
                (or_introl (ex_intro _ _ eq_refl)))
      as (s' & err & Hret & -> & _ & Hread & _).
    exists err. split; [exact Hret|]. exact (Hread _ eq_refl).
  - destruct (updateCert_failure_keeps_certificate unit unit string
                (bytes * bytes) (bytes * bytes) Sample.MountPathTLSKeyPEM
                Sample.MountPathTLSCrtPEM Sample.ReadPEMCreds Sample.EncodePEM
                Sample.EncodePrivateKeyPEM Sample.X509KeyPair serving
                (mounted "" "key B")
                (or_intror
                   (ex_intro _ ([], pem "key B")
                      (ex_intro _
                         (mkError
                            "tls: failed to find any PEM data in certificate input")
                         (conj eq_refl eq_refl)))))
      as (s' & err & Hret & -> & _).
    exists err. split; [exact Hret | reflexivity].
Defined.

(** C9, counterexample. A server constructed on [/etc/webhook], where a
    good key pair lies, with nothing at the mounted paths: the watcher is
    pointed at [/etc/webhook], the read goes to the two mounted paths, finds
    nothing, and the process exits. With a pair at the mounted paths and
    another under [/etc/webhook], the server comes up with the mounted
    pair. *)
Lemma certificate_not_read_from_certPath :
  Sample.NewServer (elsewhere "crt B" "key B") "/etc/webhook" Sample.allow
    = (Exit 1,
       [Watch "/etc/webhook";
        ReadCreds "/var/run/linkerd/tls/tls.key" "/var/run/linkerd/tls/tls.crt";
        Log FatalLevel
          "Failed to initialized certificate: failed to read cert from disk: open /var/run/linkerd/tls/tls.key: no such file or directory"]) /\
  exists s,
    outcome_of
      (Sample.NewServer (mounted "crt A" "key A" ∪ elsewhere "crt B" "key B")
         "/etc/webhook" Sample.allow) = Ret s /\
    getCertificate s = (Some (pem "crt A", pem "key A"), None).
Proof.
  split; [vm_compute; reflexivity|].
  eexists. split; vm_compute; reflexivity.
Qed.

(** ** [serve] on a broken connection *)

(** C10. A request whose answer cannot be written is not answered with
    status 500 and the error's text. The review decodes, the handler
    allows it, the exchange is encoded, and the connection rejects the
    write. [serve] then calls [http.Error] with 500, as it does when
    reading or encoding fails, but the failed write has already put out
    200: the writer [serve] returns has status 200, not 500, and its body
    holds nothing of the error's text. *)
Lemma write_failure_not_answered_with_500 :
  connErr Sample.broken = Some (mkError "write: broken pipe") /\
  exists res,
    outcome_of
      (Sample.serve (Sample.server Sample.allow) Sample.broken
         (Sample.post reviewBody)) = Ret res /\
    status res = Some StatusOK /\
    status res <> Some StatusInternalServerError /\
    written res = [].
Proof.
  split; [reflexivity|]. eexists. repeat split. discriminate.
Qed.

(** The request whose body breaks off while it is read. *)
Definition truncated : http_Request unit :=
  mkRequest (Some (bytes_of "{requ", Some (mkError "unexpected EOF"))) tt.

Lemma serve_failures_witness :
  (exists res,
     Sample.serve (Sample.server Sample.allow) Sample.fresh truncated
       = (Ret res, []) /\
     status res = Some StatusInternalServerError /\
     written res = bytes_of ("unexpected EOF" +:+ newline)) /\
  (exists res,
     outcome_of
       (Sample.serve (Sample.server Sample.scribble) Sample.fresh
          (Sample.post reviewBody)) = Ret res /\
     status res = Some StatusInternalServerError /\
     Header res !! "Content-Type" = Some "text/plain; charset=utf-8") /\
  (exists res,
     outcome_of
       (Sample.serve (Sample.server Sample.allow) Sample.broken
          (Sample.post reviewBody)) = Ret res /\
     status res = Some StatusOK).
Proof.
  pose proof (serve_failures unit unit string (bytes * bytes)
                Sample.Unmarshal Sample.Marshal Sample.fmtRequest) as H.
  repeat split.
  - destruct (H (Sample.server Sample.allow) Sample.fresh truncated eq_refl)
      as (Hread & _ & Hfresh & _).
    eexists. split; [exact (Hread _ _ eq_refl)|].
    destruct (Hfresh "unexpected EOF") as (Hst & _ & Hw).
    split; [exact Hst | exact (Hw eq_refl)].
  - destruct (H (Sample.server Sample.scribble) Sample.fresh
                (Sample.post reviewBody) eq_refl)
      as (_ & Hmarshal & Hfresh & _).
    eexists. split.
    + refine (f_equal fst (Hmarshal (bytes_of reviewBody) _ _ _
                             eq_refl _ eq_refl eq_refl)).
      discriminate.
    + destruct (Hfresh
                  "json: error calling MarshalJSON for type runtime.RawExtension: unexpected end of JSON input")
        as (Hst & Hct & _).
      split; [exact Hst | exact Hct].
  - destruct (H (Sample.server Sample.allow) Sample.broken
                (Sample.post reviewBody) eq_refl)
      as (_ & _ & _ & Hwrite).
    destruct (Hwrite (bytes_of reviewBody) _ _ _ _ eq_refl
                ltac:(discriminate) eq_refl eq_refl eq_refl)
      as (res & Hret & _ & Hst & _).
    exists res. split; [exact (f_equal fst Hret) | exact Hst].
Defined.

Lemma getCertificate_after_update_witness :
  exists s',
    outcome_of (Sample.updateCert serving (mounted "crt B" "key B"))
      = Ret (s', None) /\
    getCertificate s' = (Some (pem "crt B", pem "key B"), None).
Proof.
  destruct (getCertificate_after_update unit unit string (bytes * bytes)
              (bytes * bytes) Sample.MountPathTLSKeyPEM
              Sample.MountPathTLSCrtPEM Sample.ReadPEMCreds Sample.EncodePEM
              Sample.EncodePrivateKeyPEM Sample.X509KeyPair serving
              (mounted "crt B" "key B") (pem "crt B", pem "key B")
              (pem "crt B", pem "key B") eq_refl eq_refl)
    as (s' & Hret & Hget & _).
  by exists s'.
Defined.

(** The store starts with certificate A; a rotation to B is taken up; the
    watcher reports an error; a rotation caught with an empty certificate
    file is skipped with a warning; B stays in service. *)
Example rotation_scenario :
  Sample.ReadPEMCreds (mounted "crt B" "key B") Sample.MountPathTLSKeyPEM
    Sample.MountPathTLSCrtPEM = Ok (pem "crt B", pem "key B") /\
  exists s t,
    run unit unit string (bytes * bytes) (bytes * bytes)
      Sample.MountPathTLSKeyPEM Sample.MountPathTLSCrtPEM Sample.ReadPEMCreds
      Sample.EncodePEM Sample.EncodePrivateKeyPEM Sample.X509KeyPair serving
      [Updated (mounted "crt B" "key B");
       Failed (mkError "no space left on device");
       Updated (mounted "" "key C")] = (Ret s, t) /\
    getCertificate s = (Some (pem "crt B", pem "key B"), None) /\
    last t =
      Some (Log WarnLevel
              "Skipping update as cert could not be read from disk: tls: failed to find any PEM data in certificate input").
Proof.
  split; [vm_compute; reflexivity|].
  eexists _, _. split; [vm_compute; reflexivity|].
  split; vm_compute; reflexivity.
Qed.

(** ** The further properties on concrete inputs *)

Lemma serve_answers_with_handler_response_witness :
  exists res' js,
    Sample.Marshal (AdmissionReview.mk "" "" (Some Sample.abc)
                      (Some abcAllowed)) = Ok js /\
    Sample.serve (Sample.server Sample.allow) Sample.fresh
      (Sample.post reviewBody)
      = (Ret res',
         preamble Sample.fmtRequest Sample.abc) /\
    status res' = Some StatusOK /\
    written res' = js /\
    Header res' = ∅.
Proof.
  destruct (serve_answers_with_handler_response unit unit string
              (bytes * bytes) Sample.Unmarshal Sample.Marshal
              Sample.fmtRequest (Sample.server Sample.allow) Sample.fresh
              (Sample.post reviewBody) (bytes_of reviewBody) abcReview
              Sample.abc Sample.abc (Some abcAllowed) _
              eq_refl ltac:(discriminate) eq_refl eq_refl eq_refl eq_refl
              eq_refl eq_refl)
    as (res' & Hserve & Hstatus & Hwritten & Hheader).
  exists res'. eexists. split; [reflexivity|].
  split; [exact Hserve|]. split; [exact Hstatus|].
  split; [exact Hwritten | exact Hheader].
Defined.

(** A handler that returns a nil response and a nil error. *)
Definition shrug : Sample.Handler := fun _ _ request _ =>
  (request, None, None).

Lemma processReq_response_nil_iff_witness :
  outcome_of (Sample.processReq (Sample.server shrug) (bytes_of reviewBody))
    = Ret (AdmissionReview.mk "" "" (Some Sample.abc) None) /\
  exists request request',
    (decode Sample.Unmarshal (bytes_of reviewBody)).2 = None /\
    AdmissionReview.Request (decode Sample.Unmarshal (bytes_of reviewBody)).1
      = Some request /\
    shrug tt tt request "webhook" = (request', None, None).
Proof.
  split; [reflexivity|].
  exact (proj1 (proj1 (processReq_response_nil_iff unit unit string
                         (bytes * bytes) Sample.Unmarshal Sample.fmtRequest
                         (Sample.server shrug) tt (bytes_of reviewBody)
                         (AdmissionReview.mk "" "" (Some Sample.abc) None)
                         eq_refl))
           eq_refl).
Defined.

(** A body that brings a response of its own, and a decoder that knows it:
    it sets the request and that response. Every other body goes to the
    sample decoder. *)
Definition smuggledBody : string :=
  "{request: {uid: abc}, response: {uid: abc, allowed: true}}".

Definition UnmarshalWithResponse (data : bytes) (into : AdmissionReview.t)
  : AdmissionReview.t * option error :=
  if String.eqb (string_of_list_byte data) smuggledBody then
    (AdmissionReview.setResponse
       (AdmissionReview.setRequest into (Some Sample.abc)) (Some abcAllowed),
     None)
  else Sample.Unmarshal data into.

Lemma processReq_ignores_decoded_response_witness :
  (decode UnmarshalWithResponse (bytes_of smuggledBody)).1
    = AdmissionReview.mk "" "" (Some Sample.abc) (Some abcAllowed) /\
  processReq unit unit string (bytes * bytes) UnmarshalWithResponse
    Sample.fmtRequest (Sample.server Sample.reject) tt
    (bytes_of smuggledBody)
  = processReq unit unit string (bytes * bytes) UnmarshalWithResponse
      Sample.fmtRequest (Sample.server Sample.reject) tt
      (bytes_of reviewBody).
Proof.
  split; [reflexivity|].
  exact (processReq_ignores_decoded_response unit unit string
           (bytes * bytes) UnmarshalWithResponse Sample.fmtRequest
           (Sample.server Sample.reject) tt (bytes_of reviewBody)
           (bytes_of smuggledBody) abcReview (Some abcAllowed) None
           eq_refl eq_refl).
Defined.
